(** * Voice Q&A webhook service: a shallow embedding of [main.py]

    The module has two FastAPI endpoints, [twilio_voice] and
    [process_recording], and four helpers that talk to outside services
    ([azure_transcribe_from_url], [azure_tts_to_mp3],
    [upload_bytes_to_firebase], [lawyer_bot_answer]).  The Python code is
    straight-line: it contains no [try]/[except], so an exception raised by
    any collaborator or by an SDK constructor leaves the handler.  The
    embedding keeps that visible: handlers are computations in a small monad
    that threads the process state, may raise, and logs the calls made to
    outside services. *)

From Stdlib Require Import NArith ZArith List String Ascii Bool Lia Sorted.
From stdpp Require Import base gmap sets list strings.

Open Scope string_scope.
Open Scope list_scope.

(** ** Python values *)

(** A Python [str] is a sequence of code points. *)
Definition pystr := list N.

(** Source literals are ASCII; [lit] reads one as a [pystr]. *)
Definition lit (s : string) : pystr :=
  List.map N_of_ascii (list_ascii_of_string s).

(** A Python [bytes] object. *)
Definition bytes := list Byte.byte.

(** [str.isspace] on one code point (CPython's whitespace table). *)
Definition py_isspace (c : N) : bool :=
  (((0x09 <=? c) && (c <=? 0x0D)) || ((0x1C <=? c) && (c <=? 0x20))
   || (c =? 0x85) || (c =? 0xA0) || (c =? 0x1680)
   || ((0x2000 <=? c) && (c <=? 0x200A))
   || (c =? 0x2028) || (c =? 0x2029) || (c =? 0x202F)
   || (c =? 0x205F) || (c =? 0x3000))%N.

Fixpoint lstrip (s : pystr) : pystr :=
  match s with
  | c :: s' => if py_isspace c then lstrip s' else s
  | [] => []
  end.

Definition rstrip (s : pystr) : pystr := rev (lstrip (rev s)).

(** [s.strip()] with no argument. *)
Definition strip (s : pystr) : pystr := rstrip (lstrip s).

(** The values a field of [call_doc] can take: [From] and [To] default to
    [None], everything else is a [str]. *)
Inductive pyval :=
| PyNone
| PyStr (s : pystr).

Definition of_optional (o : option pystr) : pyval :=
  match o with
  | Some s => PyStr s
  | None => PyNone
  end.

(** A raised Python exception: its class and its message. *)
Inductive exn :=
| PyErr (cls msg : string).

Inductive outcome (A : Type) :=
| Ret (a : A)
| Raise (e : exn).
Arguments Ret {A} a.
Arguments Raise {A} e.

(** ** Outside services *)

(** [speechsdk.ResultReason], the members a recognition or a synthesis can
    end with. *)
Inductive ResultReason :=
| NoMatch
| Canceled
| RecognizingSpeech
| RecognizedSpeech
| SynthesizingAudioStarted
| SynthesizingAudio
| SynthesizingAudioCompleted.

Definition ResultReason_eqb (a b : ResultReason) : bool :=
  match a, b with
  | NoMatch, NoMatch | Canceled, Canceled
  | RecognizingSpeech, RecognizingSpeech
  | RecognizedSpeech, RecognizedSpeech
  | SynthesizingAudioStarted, SynthesizingAudioStarted
  | SynthesizingAudio, SynthesizingAudio
  | SynthesizingAudioCompleted, SynthesizingAudioCompleted => true
  | _, _ => false
  end.

(** What [recognize_once_async().get()] hands back. *)
Record SpeechRecognitionResult := {
  reason : ResultReason;
  text : pystr;
}.

(** What [speak_text_async(text).get()] hands back. *)
Record SpeechSynthesisResult := {
  synthesis_reason : ResultReason;
  audio_data : bytes;
}.

(** A Firestore document written by the service. *)
Abbreviation document := (gmap string pyval).

(** A Cloud Storage object. *)
Record blob := {
  blob_data : bytes;
  blob_content_type : pystr;
  blob_public : bool;
}.

(** The calls the log keeps: those that leave the process, and
    [tts_request text], which stands for the call [azure_tts_to_mp3(text)]
    as a whole. *)
Inductive call :=
| requests_get (url : pystr)
| recognize_once (filename : pystr)
| chain_invoke (question : pystr)
| speak_text (text : pystr)
| tts_request (text : pystr)
| document_reference (call_sid : pystr)
| document_set (call_sid turn_id : pystr) (doc : document)
| upload_from_string (path : pystr) (data : bytes) (content_type : pystr)
| make_public (path : pystr).

(** A logged call and the exception it raised, if any. *)
Definition event := (call * option exn)%type.

(** The behaviour of the outside world during one request.  For Firestore
    and Cloud Storage the world says both how a call ends and what the
    service holds afterwards; nothing is assumed about either. *)
Record Env := {
  http_content : pystr -> outcome bytes;
  recognition : bytes -> outcome SpeechRecognitionResult;
  llm_content : pystr -> outcome pystr;
  synthesis : pystr -> outcome SpeechSynthesisResult;
  firestore_ref : pystr -> outcome unit;
  firestore_write : pystr -> pystr -> document -> outcome unit;
  firestore_after :
    pystr -> pystr -> document ->
    gmap (pystr * pystr) document -> gmap (pystr * pystr) document;
  storage_write : pystr -> bytes -> pystr -> outcome unit;
  storage_after : pystr -> bytes -> pystr -> gmap pystr blob -> gmap pystr blob;
  storage_acl : pystr -> outcome unit;
  acl_after : pystr -> gmap pystr blob -> gmap pystr blob;
  public_url_of : pystr -> pystr;
  uuid_source : nat -> pystr;
  utc_now : pystr;
}.

(** The state a request can change: the uuids drawn so far, the files under
    [/tmp], and what Firestore ([calls/{CallSid}/turns/{id}]) and the
    storage bucket hold. *)
Record State := {
  uuids_drawn : nat;
  tmp_files : gmap pystr bytes;
  db : gmap (pystr * pystr) document;
  bucket : gmap pystr blob;
}.

(** ** The handler monad *)

Definition M (A : Type) : Type := Env -> State -> outcome A * State * list event.

Definition ret {A} (a : A) : M A := fun _ st => (Ret a, st, []).

Definition bind {A B} (m : M A) (k : A -> M B) : M B :=
  fun env st =>
    match m env st with
    | (Ret a, st1, l1) =>
        match k a env st1 with
        | (r, st2, l2) => (r, st2, l1 ++ l2)
        end
    | (Raise e, st1, l1) => (Raise e, st1, l1)
    end.

Declare Scope handler_scope.
Delimit Scope handler_scope with handler.
Notation "x <- m ;; k" := (bind m (fun x => k))
  (at level 100, m at next level, right associativity) : handler_scope.
Notation "m ;;; k" := (bind m (fun _ => k))
  (at level 100, right associativity) : handler_scope.
Open Scope handler_scope.

(** A call to an outside service: logged, and raising when the service
    does. *)
Definition external {A} (c : call) (answer : Env -> outcome A) : M A :=
  fun env st =>
    match answer env with
    | Ret a => (Ret a, st, [(c, None)])
    | Raise e => (Raise e, st, [(c, Some e)])
    end.

(** A call to a service that keeps data: logged like [external]; what the
    service holds afterwards is for the world to say, whether the call
    returned or raised. *)
Definition service {A} (c : call) (answer : Env -> outcome A)
    (after : Env -> State -> State) : M A :=
  fun env st =>
    match answer env with
    | Ret a => (Ret a, after env st, [(c, None)])
    | Raise e => (Raise e, after env st, [(c, Some e)])
    end.

(** A local SDK call: it returns or raises, nothing is logged. *)
Definition sdk {A} (o : outcome A) : M A :=
  fun _ st =>
    match o with
    | Ret a => (Ret a, st, [])
    | Raise e => (Raise e, st, [])
    end.

(** Run [m] as the request [c]: what [m] logs comes first, then [c] with
    the way [m] ended. *)
Definition logged {A} (c : call) (m : M A) : M A :=
  fun env st =>
    match m env st with
    | (Ret a, st1, l) => (Ret a, st1, l ++ [(c, None)])
    | (Raise e, st1, l) => (Raise e, st1, l ++ [(c, Some e)])
    end.

Definition modify (f : State -> State) : M unit :=
  fun _ st => (Ret tt, f st, []).

Definition get_state : M State := fun _ st => (Ret st, st, []).

Definition ask {A} (f : Env -> A) : M A := fun env st => (Ret (f env), st, []).

(** [str(uuid.uuid4())]. *)
Definition uuid4 : M pystr :=
  fun env st =>
    (Ret (uuid_source env (uuids_drawn st)),
     {| uuids_drawn := S (uuids_drawn st); tmp_files := tmp_files st;
        db := db st; bucket := bucket st |},
     []).

(** [datetime.now(timezone.utc).isoformat()]. *)
Definition datetime_now_isoformat : M pystr := ask utc_now.

(** ** The Speech SDK's audio output objects *)

Inductive AudioOutputStream :=
| PushStream
| PullStream.

Inductive AudioOutput :=
| ToDefaultSpeaker
| ToFile (filename : pystr)
| ToStream (stream : AudioOutputStream).

(** [speechsdk.audio.AudioOutputConfig(use_default_speaker, filename,
    stream)].  Given neither a file nor a stream, the constructor accepts
    only an explicit request for the default speaker. *)
Definition AudioOutputConfig (use_default_speaker : bool)
    (filename : option pystr) (stream : option AudioOutputStream)
    : outcome AudioOutput :=
  match filename, stream with
  | None, None =>
      if use_default_speaker then Ret ToDefaultSpeaker
      else Raise (PyErr "ValueError" "default speaker needs to be explicitly activated")
  | Some f, None => Ret (ToFile f)
  | None, Some s => Ret (ToStream s)
  | Some _, Some _ =>
      Raise (PyErr "ValueError" "only one of filename, stream, and device_name can be given")
  end.

(** [speechsdk.audio.PushAudioOutputStream(callback)]: the callback is a
    required argument. *)
Definition PushAudioOutputStream (callback : option unit)
    : outcome AudioOutputStream :=
  match callback with
  | Some _ => Ret PushStream
  | None => Raise (PyErr "TypeError" "missing 1 required positional argument: 'callback'")
  end.

(** ** TwiML *)

(** The attributes [vr.record(...)] is given. *)
Record record_attrs := {
  action : pystr;
  method : pystr;
  max_length : Z;
  play_beep : bool;
  trim : pystr;
  timeout : Z;
}.

(** The verbs the service puts into a [<Response>]. *)
Inductive verb :=
| Say (text : pystr)
| Play (url : pystr)
| RecordVerb (attrs : record_attrs).

(** A [VoiceResponse] is the ordered list of the verbs appended so far;
    [str(vr)] serialises exactly these verbs in this order, so the body of
    a reply is kept as the list itself. *)
Definition VoiceResponse := list verb.

Module vr.

Definition new : VoiceResponse := [].

Definition say (r : VoiceResponse) (text : pystr) : VoiceResponse :=
  r ++ [Say text].

Definition play (r : VoiceResponse) (url : pystr) : VoiceResponse :=
  r ++ [Play url].

Definition record (r : VoiceResponse) (action method : pystr)
    (max_length : Z) (play_beep : bool) (trim : pystr) (timeout : Z)
    : VoiceResponse :=
  r ++ [RecordVerb {| action := action; method := method;
                      max_length := max_length; play_beep := play_beep;
                      trim := trim; timeout := timeout |}].

End vr.

(** ** Helpers of [main.py] *)

Definition write_file (path : pystr) (data : bytes) : M unit :=
  modify (fun st =>
    {| uuids_drawn := uuids_drawn st;
       tmp_files := <[path := data]> (tmp_files st);
       db := db st; bucket := bucket st |}).

Definition os_remove (path : pystr) : M unit :=
  modify (fun st =>
    {| uuids_drawn := uuids_drawn st;
       tmp_files := delete path (tmp_files st);
       db := db st; bucket := bucket st |}).

(** [recognizer.recognize_once_async().get()] on the audio file
    [filename]; the SDK cannot open a file that is not there. *)
Definition recognize_file (filename : pystr) : M SpeechRecognitionResult :=
  st <- get_state ;;
  match tmp_files st !! filename with
  | Some wav => external (recognize_once filename) (fun env => recognition env wav)
  | None => fun _ st' => (Raise (PyErr "RuntimeError" "audio file not found"), st', [])
  end.

Definition azure_transcribe_from_url (audio_url : pystr) : M pystr :=
  wav <- external (requests_get audio_url) (fun env => http_content env audio_url) ;;
  u <- uuid4 ;;
  let tmp := lit "/tmp/" ++ u ++ lit ".wav" in
  (write_file tmp wav ;;;
   result <- recognize_file tmp ;;
   (os_remove tmp ;;;
    if ResultReason_eqb (reason result) RecognizedSpeech
    then ret (text result)
    else ret [])).

(** With the speech key and region configured, the statements of
    [azure_tts_to_mp3] that can raise, in source order:
    [AudioOutputConfig(use_default_speaker=False, filename=None)],
    [PushAudioOutputStream()], [AudioOutputConfig(stream=stream)] and
    [synthesizer.speak_text_async(text).get()].  The callbacks, the [done]
    list and the pull stream between them have no effect. *)
Definition azure_tts_to_mp3 (text : pystr) : M bytes :=
  logged (tts_request text)
    (audio_config <- sdk (AudioOutputConfig false None None) ;;
     stream <- sdk (PushAudioOutputStream None) ;;
     audio_config <- sdk (AudioOutputConfig false None (Some stream)) ;;
     result <- external (speak_text text) (fun env => synthesis env text) ;;
     ret (audio_data result)).

Definition upload_bytes_to_firebase (data : bytes) (path content_type : pystr)
    : M pystr :=
  (service (upload_from_string path data content_type)
     (fun env => storage_write env path data content_type)
     (fun env st =>
        {| uuids_drawn := uuids_drawn st; tmp_files := tmp_files st; db := db st;
           bucket := storage_after env path data content_type (bucket st) |}) ;;;
   service (make_public path) (fun env => storage_acl env path)
     (fun env st =>
        {| uuids_drawn := uuids_drawn st; tmp_files := tmp_files st; db := db st;
           bucket := acl_after env path (bucket st) |}) ;;;
   ask (fun env => public_url_of env path)).

Definition lawyer_bot_answer (question : pystr) : M pystr :=
  content <- external (chain_invoke question) (fun env => llm_content env question) ;;
  ret (strip content).

(** [db.collection("calls").document(CallSid).collection("turns")]: the
    client checks the path it is given and may refuse it. *)
Definition turns_collection (call_sid : pystr) : M unit :=
  external (document_reference call_sid) (fun env => firestore_ref env call_sid).

(** [ref.set(call_doc)] on [calls/{call_sid}/turns/{turn_id}]. *)
Definition ref_set (call_sid turn_id : pystr) (doc : document) : M unit :=
  service (document_set call_sid turn_id doc)
    (fun env => firestore_write env call_sid turn_id doc)
    (fun env st =>
       {| uuids_drawn := uuids_drawn st; tmp_files := tmp_files st;
          db := firestore_after env call_sid turn_id doc (db st);
          bucket := bucket st |}).

(** ** The endpoints *)

Definition twilio_voice : M VoiceResponse :=
  let r := vr.new in
  let r := vr.say r (lit "Hello. You're connected to the legal information assistant. Please ask your question after the beep. Then pause.") in
  let r := vr.record r (lit "/twilio/process_recording") (lit "POST")
             30 true (lit "trim-silence") 3 in
  let r := vr.say r (lit "I didn't receive a recording. Goodbye.") in
  ret r.

(** The dict literal [call_doc] of [process_recording]. *)
Definition call_doc (CallSid : pystr) (From To : option pystr)
    (transcript answer_text now : pystr) : document :=
  list_to_map
    [("call_sid", PyStr CallSid);
     ("from", of_optional From);
     ("to", of_optional To);
     ("question_transcript", PyStr transcript);
     ("answer_text", PyStr answer_text);
     ("created_at", PyStr now);
     ("type", PyStr (lit "qa"))].

Definition process_recording (RecordingUrl CallSid : pystr)
    (From To : option pystr) : M VoiceResponse :=
  transcript <- azure_transcribe_from_url (RecordingUrl ++ lit ".wav") ;;
  answer_text <-
    (if decide (strip transcript = [])
     then ret (lit "Sorry, I could not understand the audio. Please try again or consult a licensed attorney.")
     else lawyer_bot_answer transcript) ;;
  audio_bytes <- azure_tts_to_mp3 answer_text ;;
  now <- datetime_now_isoformat ;;
  let doc := call_doc CallSid From To transcript answer_text now in
  (turns_collection CallSid ;;;
   turn_id <- uuid4 ;;
   (ref_set CallSid turn_id doc ;;;
    audio_id <- uuid4 ;;
    let audio_path := lit "calls/" ++ CallSid ++ lit "/" ++ audio_id ++ lit ".mp3" in
    public_url <- upload_bytes_to_firebase audio_bytes audio_path (lit "audio/mpeg") ;;
    let r := vr.new in
    let r := vr.play r public_url in
    let r := vr.say r (lit "You may ask one more short question after the beep.") in
    let r := vr.record r (lit "/twilio/process_recording") (lit "POST")
               30 true (lit "trim-silence") 3 in
    let r := vr.say r (lit "Thank you for calling. Goodbye.") in
    ret r)).

(** What the web framework sends for a handler declared with
    [response_class=PlainTextResponse]: 200 with the returned text, or 500
    without a TwiML body when the handler raised. *)
Record http_response := {
  status_code : nat;
  body : option VoiceResponse;
}.

Definition respond (r : outcome VoiceResponse) : http_response :=
  match r with
  | Ret v => {| status_code := 200; body := Some v |}
  | Raise _ => {| status_code := 500; body := None |}
  end.

(** The three components of a run. *)
Definition result_of {A} (x : outcome A * State * list event) : outcome A := x.1.1.
Definition state_of {A} (x : outcome A * State * list event) : State := x.1.2.
Definition log_of {A} (x : outcome A * State * list event) : list event := x.2.

(** The reply to [POST /twilio/voice]. *)
Definition post_twilio_voice (env : Env) (st : State) : http_response :=
  respond (result_of (twilio_voice env st)).

(** The reply to a [POST /twilio/process_recording] whose form passed
    validation, so that the handler runs on its four fields. *)
Definition post_process_recording (RecordingUrl CallSid : pystr)
    (From To : option pystr) (env : Env) (st : State) : http_response :=
  respond (result_of (process_recording RecordingUrl CallSid From To env st)).

(** The form of a [POST /twilio/process_recording]; a field may be absent. *)
Record form := {
  RecordingUrl_field : option pystr;
  CallSid_field : option pystr;
  From_field : option pystr;
  To_field : option pystr;
}.

(** The framework reads an empty form value as a missing one. *)
Definition form_value (o : option pystr) : option pystr :=
  match o with
  | Some [] => None
  | _ => o
  end.

(** [POST /twilio/process_recording] from the form on: [RecordingUrl] and
    [CallSid] are declared [Form(...)], so a request without one of them is
    answered 422 and the handler does not run; [From] and [To] are declared
    [Form(None)]. *)
Definition serve_process_recording (f : form) (env : Env) (st : State)
    : http_response * State * list event :=
  match form_value (RecordingUrl_field f), form_value (CallSid_field f) with
  | Some url, Some sid =>
      let run :=
        process_recording url sid
          (form_value (From_field f)) (form_value (To_field f)) env st in
      (post_process_recording url sid
         (form_value (From_field f)) (form_value (To_field f)) env st,
       state_of run, log_of run)
  | _, _ => ({| status_code := 422; body := None |}, st, [])
  end.

(** ** Concrete worlds *)

Definition st0 : State :=
  {| uuids_drawn := 0; tmp_files := ∅; db := ∅; bucket := ∅ |}.

Definition timeout_error : exn := PyErr "requests.exceptions.Timeout" "read timed out".
Definition sdk_error : exn := PyErr "RuntimeError" "speech service unreachable".
Definition llm_error : exn := PyErr "openai.APIConnectionError" "connection error".
Definition firestore_error : exn := PyErr "google.api_core.exceptions.ServiceUnavailable" "503".

Definition some_wav : bytes := [Byte.x52; Byte.x49; Byte.x46; Byte.x46].
Definition some_mp3 : bytes := [Byte.xff; Byte.xfb; Byte.x90].

(** A world in which every collaborator works and the caller asks a
    question. *)
Definition env_ok : Env :=
  {| http_content := fun _ => Ret some_wav;
     recognition := fun _ =>
       Ret {| reason := RecognizedSpeech; text := lit "What is estafa?" |};
     llm_content := fun _ =>
       Ret (lit " Estafa is a form of fraud. Please consult a licensed attorney. ");
     synthesis := fun _ =>
       Ret {| synthesis_reason := SynthesizingAudioCompleted; audio_data := some_mp3 |};
     firestore_ref := fun _ => Ret tt;
     firestore_write := fun _ _ _ => Ret tt;
     firestore_after := fun c i d m => <[(c, i) := d]> m;
     storage_write := fun _ _ _ => Ret tt;
     storage_after := fun p data ct m =>
       <[p := {| blob_data := data; blob_content_type := ct; blob_public := false |}]> m;
     storage_acl := fun _ => Ret tt;
     acl_after := fun p m =>
       alter (fun b => {| blob_data := blob_data b;
                          blob_content_type := blob_content_type b;
                          blob_public := true |}) p m;
     public_url_of := fun p => lit "https://storage.googleapis.com/bucket/" ++ p;
     uuid_source := fun n => lit "uuid-" ++ [N.of_nat (48 + n)];
     utc_now := lit "2024-01-01T00:00:00+00:00" |}.

Definition with_http (f : pystr -> outcome bytes) (env : Env) : Env :=
  {| http_content := f; recognition := recognition env;
     llm_content := llm_content env; synthesis := synthesis env;
     firestore_ref := firestore_ref env;
     firestore_write := firestore_write env; firestore_after := firestore_after env;
     storage_write := storage_write env; storage_after := storage_after env;
     storage_acl := storage_acl env; acl_after := acl_after env;
     public_url_of := public_url_of env;
     uuid_source := uuid_source env; utc_now := utc_now env |}.

Definition with_recognition (f : bytes -> outcome SpeechRecognitionResult)
    (env : Env) : Env :=
  {| http_content := http_content env; recognition := f;
     llm_content := llm_content env; synthesis := synthesis env;
     firestore_ref := firestore_ref env;
     firestore_write := firestore_write env; firestore_after := firestore_after env;
     storage_write := storage_write env; storage_after := storage_after env;
     storage_acl := storage_acl env; acl_after := acl_after env;
     public_url_of := public_url_of env;
     uuid_source := uuid_source env; utc_now := utc_now env |}.

Definition with_llm (f : pystr -> outcome pystr) (env : Env) : Env :=
  {| http_content := http_content env; recognition := recognition env;
     llm_content := f; synthesis := synthesis env;
     firestore_ref := firestore_ref env;
     firestore_write := firestore_write env; firestore_after := firestore_after env;
     storage_write := storage_write env; storage_after := storage_after env;
     storage_acl := storage_acl env; acl_after := acl_after env;
     public_url_of := public_url_of env;
     uuid_source := uuid_source env; utc_now := utc_now env |}.

(** [env] with another Firestore: how building the reference and the write
    end, and what the store holds after a write; all else equal. *)
Definition with_firestore (r : pystr -> outcome unit)
    (w : pystr -> pystr -> document -> outcome unit)
    (a : pystr -> pystr -> document ->
         gmap (pystr * pystr) document -> gmap (pystr * pystr) document)
    (env : Env) : Env :=
  {| http_content := http_content env; recognition := recognition env;
     llm_content := llm_content env; synthesis := synthesis env;
     firestore_ref := r;
     firestore_write := w; firestore_after := a;
     storage_write := storage_write env; storage_after := storage_after env;
     storage_acl := storage_acl env; acl_after := acl_after env;
     public_url_of := public_url_of env;
     uuid_source := uuid_source env; utc_now := utc_now env |}.

Definition env_stt_timeout : Env := with_http (fun _ => Raise timeout_error) env_ok.
Definition env_canceled : Env :=
  with_recognition (fun _ => Ret {| reason := Canceled; text := [] |}) env_ok.
Definition env_no_match : Env :=
  with_recognition (fun _ => Ret {| reason := NoMatch; text := [] |}) env_ok.
Definition env_blank : Env :=
  with_recognition (fun _ => Ret {| reason := RecognizedSpeech; text := lit "  " |}) env_ok.
Definition env_recognizer_raises : Env :=
  with_recognition (fun _ => Raise sdk_error) env_ok.
Definition env_llm_raises : Env := with_llm (fun _ => Raise llm_error) env_ok.
Definition env_llm_blank : Env := with_llm (fun _ => Ret (lit "  ")) env_ok.

(** A Firestore whose every write fails and leaves the store as it was. *)
Definition failing_write (call_sid turn_id : pystr) (doc : document) : outcome unit :=
  Raise firestore_error.
Definition env_store_fails : Env :=
  with_firestore (fun _ => Ret tt) failing_write (fun _ _ _ m => m) env_ok.

Definition url0 : pystr := lit "https://api.twilio.com/Recordings/RE1".
Definition sid0 : pystr := lit "CA123".
Definition caller0 : option pystr := Some (lit "+15550001").
Definition callee0 : option pystr := Some (lit "+15550002").

(** A well-formed request, and one whose [CallSid] is empty. *)
Definition form0 : form :=
  {| RecordingUrl_field := Some url0; CallSid_field := Some sid0;
     From_field := caller0; To_field := callee0 |}.
Definition form_no_sid : form :=
  {| RecordingUrl_field := Some url0; CallSid_field := Some [];
     From_field := caller0; To_field := callee0 |}.

(** The exception [azure_tts_to_mp3] ends with. *)
Definition no_default_speaker : exn :=
  PyErr "ValueError" "default speaker needs to be explicitly activated".

(** ** Reading logs and replies *)

Definition returned (ev : event) : Prop := ev.2 = None.

Definition is_chain_invoke (c : call) : bool :=
  match c with
  | chain_invoke _ => true
  | _ => false
  end.

(** The text-to-speech stage: the call of [azure_tts_to_mp3] and the
    synthesis call inside it. *)
Definition is_tts_call (c : call) : bool :=
  match c with
  | tts_request _ | speak_text _ => true
  | _ => false
  end.

Definition is_document_set (c : call) : bool :=
  match c with
  | document_set _ _ _ => true
  | _ => false
  end.

(** The two calls [upload_bytes_to_firebase] makes. *)
Definition is_publish_call (c : call) : bool :=
  match c with
  | upload_from_string _ _ _ | make_public _ => true
  | _ => false
  end.

Definition is_record (v : verb) : bool :=
  match v with
  | RecordVerb _ => true
  | _ => false
  end.

(** The calls that lie behind the first statement of [azure_tts_to_mp3]:
    the synthesis, Firestore and the bucket. *)
Definition comes_after_tts_setup (c : call) : bool :=
  match c with
  | speak_text _ | document_reference _ | document_set _ _ _
  | upload_from_string _ _ _ | make_public _ => true
  | _ => false
  end.

(** The stage a call belongs to, in the order [process_recording] reaches
    them. *)
Definition call_stage (c : call) : nat :=
  match c with
  | requests_get _ => 0
  | recognize_once _ => 1
  | chain_invoke _ => 2
  | speak_text _ => 3
  | tts_request _ => 4
  | document_reference _ => 5
  | document_set _ _ _ => 6
  | upload_from_string _ _ _ => 7
  | make_public _ => 8
  end.

(** The temporary file [azure_transcribe_from_url] writes when started in
    [st]. *)
Definition tmp_wav (env : Env) (st : State) : pystr :=
  lit "/tmp/" ++ uuid_source env (uuids_drawn st) ++ lit ".wav".

(** The field names the specification gives a persisted turn. *)
Definition spec_turn_fields : gset string :=
  {[ "call_id"; "turn_id"; "from"; "to"; "question_transcript";
     "answer_text"; "audio_url"; "status"; "created_at" ]}.

(** The field names [call_doc] has. *)
Definition call_doc_fields : gset string :=
  {[ "call_sid"; "from"; "to"; "question_transcript"; "answer_text";
     "created_at"; "type" ]}.

(** * Properties *)

(** ** Whitespace *)

Lemma lstrip_nil_iff (s : pystr) :
  lstrip s = [] <-> forallb py_isspace s = true.
Proof.
  induction s as [|c s IH]; simpl; [tauto|].
  destruct (py_isspace c); simpl; [exact IH|].
  split; intros H; discriminate H.
Qed.

Lemma lstrip_head (s : pystr) :
  lstrip s = [] \/ exists c r, lstrip s = c :: r /\ py_isspace c = false.
Proof.
  induction s as [|c s IH]; simpl; [now left|].
  destruct (py_isspace c) eqn:E; [exact IH|].
  right. exists c, s. now split.
Qed.

Lemma forallb_lstrip (s : pystr) :
  forallb py_isspace (lstrip s) = true -> lstrip s = [].
Proof.
  destruct (lstrip_head s) as [H|(c & r & H & Hc)]; [now intros _|].
  rewrite H. simpl. rewrite Hc. discriminate.
Qed.

(** [s.strip() == ""] says exactly that [s] is empty or all whitespace. *)
Lemma strip_nil_iff (s : pystr) :
  strip s = [] <-> forallb py_isspace s = true.
Proof.
  unfold strip, rstrip. split.
  - intros H. apply lstrip_nil_iff, forallb_lstrip.
    assert (Hr : lstrip (rev (lstrip s)) = []).
    { destruct (lstrip (rev (lstrip s))) as [|c r] eqn:E; [reflexivity|].
      simpl in H. destruct (rev r); discriminate H. }
    apply lstrip_nil_iff in Hr.
    rewrite forallb_forall in Hr |- *.
    intros x Hx. apply Hr. rewrite <- in_rev. exact Hx.
  - intros H. apply lstrip_nil_iff in H. rewrite H. reflexivity.
Qed.

(** ** Speech-to-text *)

(** The run of [azure_transcribe_from_url], spelled out by the answers of
    the download and of the recogniser. *)
Lemma azure_transcribe_from_url_run (url : pystr) (env : Env) (st : State) :
  azure_transcribe_from_url url env st =
  match http_content env url with
  | Raise e => (Raise e, st, [(requests_get url, Some e)])
  | Ret wav =>
      match recognition env wav with
      | Raise e =>
          (Raise e,
           {| uuids_drawn := S (uuids_drawn st);
              tmp_files := <[tmp_wav env st := wav]> (tmp_files st);
              db := db st; bucket := bucket st |},
           [(requests_get url, None); (recognize_once (tmp_wav env st), Some e)])
      | Ret r =>
          (Ret (if ResultReason_eqb (reason r) RecognizedSpeech then text r else []),
           {| uuids_drawn := S (uuids_drawn st);
              tmp_files := delete (tmp_wav env st) (<[tmp_wav env st := wav]> (tmp_files st));
              db := db st; bucket := bucket st |},
           [(requests_get url, None); (recognize_once (tmp_wav env st), None)])
      end
  end.
Proof.
  unfold azure_transcribe_from_url, bind, external at 1.
  destruct (http_content env url) as [wav|e]; [|reflexivity].
  unfold uuid4, write_file, modify, recognize_file, bind, get_state.
  cbn [tmp_files uuids_drawn db bucket].
  fold (tmp_wav env st).
  rewrite lookup_insert_eq.
  unfold external.
  destruct (recognition env wav) as [r|e]; [|reflexivity].
  unfold os_remove, modify. cbn [tmp_files uuids_drawn db bucket].
  destruct (ResultReason_eqb (reason r) RecognizedSpeech); reflexivity.
Qed.


(** ** Running [process_recording] *)

Ltac tidy :=
  cbn [uuids_drawn tmp_files db bucket app fst snd
       with_firestore http_content recognition llm_content synthesis
       firestore_ref firestore_write firestore_after
       storage_write storage_after storage_acl acl_after
       public_url_of uuid_source utc_now].

(** Split on the answer of every collaborator, in the order they are
    asked. *)
Ltac oracle_cases :=
  repeat match goal with
  | |- context [match ?o with Ret _ => _ | Raise _ => _ end] =>
      match type of o with outcome _ => idtac end;
      first [ match goal with H : o = _ |- _ => rewrite H end
            | let E := fresh "E" in destruct o eqn:E ];
      tidy
  | |- context [match ?o with left _ => _ | right _ => _ end] =>
      let E := fresh "Hblank" in destruct o as [E|E]; tidy
  end.

Ltac run_process_recording :=
  unfold post_process_recording, process_recording; unfold bind;
  rewrite !azure_transcribe_from_url_run;
  unfold lawyer_bot_answer, azure_tts_to_mp3, datetime_now_isoformat,
    turns_collection, ref_set, upload_bytes_to_firebase;
  unfold logged, bind, external, service, sdk, modify, ask, uuid4, ret, tmp_wav,
    AudioOutputConfig, PushAudioOutputStream;
  unfold log_of, result_of, state_of;
  tidy; oracle_cases.

(** Check a property of every entry of an explicit log. *)
Ltac all_log :=
  solve [repeat (apply List.Forall_cons; [reflexivity|]); apply List.Forall_nil].

(** Find an event in an explicit log. *)
Ltac in_log :=
  solve [repeat first [apply list_elem_of_here | apply list_elem_of_further]].

(** Split a hypothesis that an event is in an explicit log into the
    entries it can be. *)
Ltac log_inv H :=
  repeat match type of H with
  | _ ∈ _ :: _ =>
      apply elem_of_cons in H; destruct H as [H|H];
      [try (inversion H; subst; clear H)|]
  | _ ∈ [] => apply not_elem_of_nil in H; destruct H
  end.

(** Every run ends with an exception, the one raised by the last call
    logged. *)
Lemma process_recording_raises url sid from to env st :
  let run := process_recording url sid from to env st in
  exists c e, (c, Some e) ∈ log_of run /\ result_of run = Raise e.
Proof.
  intros run; subst run. run_process_recording.
  all: do 2 eexists; split; [in_log | reflexivity].
Qed.

(** A call that raised ends the handler with its exception. *)
Lemma raised_call_ends_the_run url sid from to env st c e :
  let run := process_recording url sid from to env st in
  (c, Some e) ∈ log_of run -> result_of run = Raise e.
Proof.
  intros run; subst run. run_process_recording; intros H; log_inv H.
  all: reflexivity.
Qed.

(** ** C1 *)

(** C1, as stated, fails: when the download of the recording times out the
    handler raises and the platform gets a 500 without instructions. *)
Lemma C1_stage_failure_reaches_the_platform :
  serve_process_recording form0 env_stt_timeout st0
  = ({| status_code := 500; body := None |}, st0,
     [(requests_get (url0 ++ lit ".wav"), Some timeout_error)]).
Proof. vm_compute. reflexivity. Qed.

(** C1 (amended): [process_recording] catches nothing.  A request without
    [RecordingUrl] or [CallSid] is answered 422 before the handler runs.
    Otherwise, whenever a call of the run raised, the handler ended with
    that very exception and the platform gets a 500 without
    instructions. *)
Theorem C1_no_stage_failure_is_caught f env st :
  let served := serve_process_recording f env st in
  (form_value (RecordingUrl_field f) = None \/
   form_value (CallSid_field f) = None ->
   served = ({| status_code := 422; body := None |}, st, []))
  /\ (forall c e, (c, Some e) ∈ served.2 ->
      served.1.1 = {| status_code := 500; body := None |} /\
      exists url sid,
        form_value (RecordingUrl_field f) = Some url /\
        form_value (CallSid_field f) = Some sid /\
        result_of (process_recording url sid
                     (form_value (From_field f)) (form_value (To_field f))
                     env st) = Raise e).
Proof.
  intros served; subst served. unfold serve_process_recording.
  destruct (form_value (RecordingUrl_field f)) as [url|] eqn:Eu;
    [destruct (form_value (CallSid_field f)) as [sid|] eqn:Es|].
  - split; [intros [H|H]; discriminate H|].
    intros c e Hin. cbn [fst snd] in *.
    apply raised_call_ends_the_run in Hin.
    unfold post_process_recording. rewrite Hin.
    split; [reflexivity|]. exists url, sid. auto.
  - split; [reflexivity|]. intros c e Hin. cbn [snd] in Hin.
    apply not_elem_of_nil in Hin. destruct Hin.
  - split; [reflexivity|]. intros c e Hin. cbn [snd] in Hin.
    apply not_elem_of_nil in Hin. destruct Hin.
Qed.

Lemma C1_no_stage_failure_is_caught_witness :
  serve_process_recording form_no_sid env_ok st0
  = ({| status_code := 422; body := None |}, st0, [])
  /\ (serve_process_recording form0 env_stt_timeout st0).1.1
     = {| status_code := 500; body := None |}.
Proof.
  split.
  - apply (proj1 (C1_no_stage_failure_is_caught form_no_sid env_ok st0)).
    right. reflexivity.
  - apply (proj2 (C1_no_stage_failure_is_caught form0 env_stt_timeout st0)
             (requests_get (url0 ++ lit ".wav")) timeout_error).
    vm_compute. in_log.
Defined.

(** ** C2 *)

(** C2, as stated, fails: with a download timeout nothing is written to
    Firestore; the only call made is the download. *)
Lemma C2_no_turn_stored_after_stt_timeout :
  let run := process_recording url0 sid0 caller0 callee0 env_stt_timeout st0 in
  result_of run = Raise timeout_error /\
  db (state_of run) = ∅ /\
  log_of run = [(requests_get (url0 ++ lit ".wav"), Some timeout_error)].
Proof. vm_compute. auto. Qed.

(** C2 (amended): the turn is recorded only after transcription has
    returned.  When [azure_transcribe_from_url] raises, the handler ends
    with that exception, [ref.set] is not called and the stored turns are
    what they were. *)
Theorem C2_transcription_failure_skips_record_turn url sid from to env st e :
  result_of (azure_transcribe_from_url (url ++ lit ".wav") env st) = Raise e ->
  let run := process_recording url sid from to env st in
  result_of run = Raise e /\
  db (state_of run) = db st /\
  Forall (fun ev => is_document_set ev.1 = false) (log_of run).
Proof.
  rewrite azure_transcribe_from_url_run. intros H run; subst run.
  revert H. run_process_recording; intros H; try discriminate H.
  all: injection H as ->.
  all: split; [reflexivity|split; [reflexivity|all_log]].
Qed.

Lemma C2_transcription_failure_witness :
  let run := process_recording url0 sid0 caller0 callee0 env_stt_timeout st0 in
  result_of run = Raise timeout_error /\
  db (state_of run) = db st0 /\
  Forall (fun ev => is_document_set ev.1 = false) (log_of run).
Proof.
  apply (C2_transcription_failure_skips_record_turn
           url0 sid0 caller0 callee0 env_stt_timeout st0 timeout_error).
  vm_compute. reflexivity.
Defined.

(** ** C3 *)


(** For instance, a Firestore whose writes all fail changes nothing of the
    run in which every other collaborator works. *)
Example failing_store_gives_the_same_run :
  process_recording url0 sid0 caller0 callee0 env_store_fails st0
  = process_recording url0 sid0 caller0 callee0 env_ok st0.
Proof. vm_compute. reflexivity. Qed.

(** ** C4 *)

(** C4, as stated, fails: the record the handler builds for [ref.set] has
    a [type] and a [call_sid] field and no [call_id], [turn_id],
    [audio_url] or [status] field. *)
Lemma C4_turn_record_has_other_fields :
  let d := call_doc sid0 caller0 callee0 (lit "What is estafa?")
             (lit "Estafa is a form of fraud. Please consult a licensed attorney.")
             (lit "2024-01-01T00:00:00+00:00") in
  d !! "type" = Some (PyStr (lit "qa")) /\
  d !! "call_sid" = Some (PyStr sid0) /\
  d !! "call_id" = None /\ d !! "turn_id" = None /\
  d !! "audio_url" = None /\ d !! "status" = None /\
  dom d <> spec_turn_fields.
Proof.
  cbv zeta. repeat (split; [vm_compute; reflexivity|]).
  intros Hdom.
  assert (Hin : "status" ∈ spec_turn_fields) by (unfold spec_turn_fields; set_solver).
  rewrite <- Hdom in Hin. apply elem_of_dom in Hin as [x Hx].
  vm_compute in Hx. discriminate Hx.
Qed.

(** C4 (amended): the turn record [process_recording] builds has exactly
    the fields call_sid, from, to, question_transcript, answer_text,
    created_at and type; [type] is "qa", [call_sid] the call's id, [from]
    and [to] the caller and callee or null, and the other three the
    transcript, the answer text and the timestamp. *)
Theorem C4_turn_record_shape sid from to transcript answer_text now :
  let d := call_doc sid from to transcript answer_text now in
  dom d = call_doc_fields /\
  d !! "type" = Some (PyStr (lit "qa")) /\
  d !! "call_sid" = Some (PyStr sid) /\
  d !! "from" = Some (of_optional from) /\
  d !! "to" = Some (of_optional to) /\
  d !! "question_transcript" = Some (PyStr transcript) /\
  d !! "answer_text" = Some (PyStr answer_text) /\
  d !! "created_at" = Some (PyStr now).
Proof.
  cbv zeta. unfold call_doc. split; [|repeat split].
  rewrite dom_list_to_map_L. unfold call_doc_fields.
  cbn [fmap list_fmap fst list_to_set foldr]. set_solver.
Qed.

(** ** C5 *)

(** C5, as stated, fails: the text-to-speech call raises after the answer
    was generated, and no [Say] of the answer is returned; the platform
    gets a 500 without instructions. *)
Lemma C5_no_spoken_fallback_when_synthesis_raises :
  let run := process_recording url0 sid0 caller0 callee0 env_ok st0 in
  (chain_invoke (lit "What is estafa?"), None) ∈ log_of run /\
  (tts_request (lit "Estafa is a form of fraud. Please consult a licensed attorney."),
   Some no_default_speaker) ∈ log_of run /\
  post_process_recording url0 sid0 caller0 callee0 env_ok st0
  = {| status_code := 500; body := None |}.
Proof.
  cbv zeta. split; [vm_compute; in_log|]. split; [vm_compute; in_log|].
  vm_compute. reflexivity.
Qed.

(** C5 (amended): if the text-to-speech stage raises (the call of
    [azure_tts_to_mp3], or the synthesis call inside it),
    [process_recording] ends with that exception.  Nothing is uploaded or
    made public and the bucket is unchanged, but no instructions are
    returned either (the platform gets a 500), and no turn is written. *)
Theorem C5_synthesis_exception_propagates url sid from to env st c e :
  let run := process_recording url sid from to env st in
  is_tts_call c = true ->
  (c, Some e) ∈ log_of run ->
  result_of run = Raise e /\
  post_process_recording url sid from to env st
  = {| status_code := 500; body := None |} /\
  Forall (fun ev => is_publish_call ev.1 = false) (log_of run) /\
  Forall (fun ev => is_document_set ev.1 = false) (log_of run) /\
  bucket (state_of run) = bucket st /\
  db (state_of run) = db st.
Proof.
  intros run; subst run.
  run_process_recording; intros Hc H; log_inv H; try discriminate Hc.
  all: split; [reflexivity|split; [reflexivity|]].
  all: split; [all_log|split; [all_log|split; reflexivity]].
Qed.

Lemma C5_synthesis_exception_witness :
  let run := process_recording url0 sid0 caller0 callee0 env_ok st0 in
  result_of run = Raise no_default_speaker /\
  post_process_recording url0 sid0 caller0 callee0 env_ok st0
  = {| status_code := 500; body := None |} /\
  Forall (fun ev => is_publish_call ev.1 = false) (log_of run) /\
  Forall (fun ev => is_document_set ev.1 = false) (log_of run) /\
  bucket (state_of run) = bucket st0 /\
  db (state_of run) = db st0.
Proof.
  apply (C5_synthesis_exception_propagates url0 sid0 caller0 callee0 env_ok st0
           (tts_request (lit "Estafa is a form of fraud. Please consult a licensed attorney."))
           no_default_speaker).
  - reflexivity.
  - vm_compute. in_log.
Defined.

(** ** C6 *)

(** C6: when the transcript is empty or all whitespace, the language model
    is not called, and [azure_tts_to_mp3] is still called, on the fixed
    apology "Sorry, I could not understand the audio. Please try again or
    consult a licensed attorney." and on nothing else. *)
Theorem C6_blank_transcript_gets_spoken_apology url sid from to env st t :
  result_of (azure_transcribe_from_url (url ++ lit ".wav") env st) = Ret t ->
  forallb py_isspace t = true ->
  let run := process_recording url sid from to env st in
  let apology :=
    lit "Sorry, I could not understand the audio. Please try again or consult a licensed attorney." in
  Forall (fun ev => is_chain_invoke ev.1 = false) (log_of run) /\
  (exists o, (tts_request apology, o) ∈ log_of run) /\
  (forall txt o, (tts_request txt, o) ∈ log_of run -> txt = apology).
Proof.
  rewrite azure_transcribe_from_url_run. intros H Hsp run apology; subst run apology.
  apply strip_nil_iff in Hsp. revert H.
  run_process_recording; intros H; try discriminate H.
  all: injection H as <-; try contradiction.
  all: split; [all_log|split; [eexists; in_log|]].
  all: intros txt o Hin; log_inv Hin; reflexivity.
Qed.

Lemma C6_blank_transcript_witness :
  let run := process_recording url0 sid0 caller0 callee0 env_blank st0 in
  let apology :=
    lit "Sorry, I could not understand the audio. Please try again or consult a licensed attorney." in
  Forall (fun ev => is_chain_invoke ev.1 = false) (log_of run) /\
  (exists o, (tts_request apology, o) ∈ log_of run) /\
  (forall txt o, (tts_request txt, o) ∈ log_of run -> txt = apology).
Proof.
  apply (C6_blank_transcript_gets_spoken_apology url0 sid0 caller0 callee0
           env_blank st0 (lit "  ")).
  - vm_compute. reflexivity.
  - vm_compute. reflexivity.
Defined.

(** ** C7 *)

(** C7: [twilio_voice] returns in every world, calls no outside service
    and changes no state; the platform gets status 200 with the greeting
    "Hello. You're connected to the legal information assistant. Please ask
    your question after the beep. Then pause." and then a [<Record>] of at
    most 30 seconds, with a beep, silence trimming and a 3-second silence
    timeout (followed by the goodbye of C10). *)
Theorem C7_twilio_voice_greets_and_records env st :
  let instructions :=
    [Say (lit "Hello. You're connected to the legal information assistant. Please ask your question after the beep. Then pause.");
     RecordVerb {| action := lit "/twilio/process_recording"; method := lit "POST";
                   max_length := 30; play_beep := true;
                   trim := lit "trim-silence"; timeout := 3 |};
     Say (lit "I didn't receive a recording. Goodbye.")] in
  twilio_voice env st = (Ret instructions, st, [])
  /\ post_twilio_voice env st
     = {| status_code := 200; body := Some instructions |}.
Proof. split; reflexivity. Qed.

(** ** C8 *)

(** C8, as stated, fails: when the language model call raises (the
    specification's [llm_failed]) no instruction set is returned at all. *)
Lemma C8_no_instructions_when_llm_raises :
  let run := process_recording url0 sid0 caller0 callee0 env_llm_raises st0 in
  (chain_invoke (lit "What is estafa?"), Some llm_error) ∈ log_of run /\
  result_of run = Raise llm_error /\
  body (post_process_recording url0 sid0 caller0 callee0 env_llm_raises st0) = None.
Proof.
  cbv zeta. split; [vm_compute; in_log|]. split; vm_compute; reflexivity.
Qed.

(** C8 (amended): in a run in which a stage raised, [process_recording]
    returns no instruction set, whatever the stage: the reply to the
    platform has no body, so neither a [Play] nor a [Say] of the answer nor
    a [Record] reaches it. *)
Theorem C8_no_instructions_after_a_stage_failure url sid from to env st c e :
  let run := process_recording url sid from to env st in
  (c, Some e) ∈ log_of run ->
  (forall v, result_of run <> Ret v) /\
  body (post_process_recording url sid from to env st) = None.
Proof.
  intros run Hin; subst run.
  apply raised_call_ends_the_run in Hin.
  unfold post_process_recording. rewrite Hin.
  split; [intros v Hv; discriminate Hv|reflexivity].
Qed.

Lemma C8_no_instructions_witness :
  let run := process_recording url0 sid0 caller0 callee0 env_llm_raises st0 in
  (forall v, result_of run <> Ret v) /\
  body (post_process_recording url0 sid0 caller0 callee0 env_llm_raises st0) = None.
Proof.
  apply (C8_no_instructions_after_a_stage_failure
           url0 sid0 caller0 callee0 env_llm_raises st0
           (chain_invoke (lit "What is estafa?")) llm_error).
  vm_compute. in_log.
Defined.

(** ** C9 *)

(** C9, as stated, fails: a recognition the engine cancelled (its error
    outcome) makes the adapter return the empty string, exactly as a
    recognition that found no speech does. *)
Lemma C9_cancelled_recognition_looks_like_silence :
  recognition env_canceled some_wav = Ret {| reason := Canceled; text := [] |} /\
  recognition env_no_match some_wav = Ret {| reason := NoMatch; text := [] |} /\
  result_of (azure_transcribe_from_url url0 env_canceled st0) = Ret [] /\
  result_of (azure_transcribe_from_url url0 env_no_match st0) = Ret [].
Proof. repeat split. Qed.

(** C9 (amended): the adapter returns the recognised text when the result's
    reason is [RecognizedSpeech] and the empty string for every other
    reason, so a cancelled recognition and silence are not told apart;
    only an exception raised by the download or by the recogniser call
    leaves the adapter as an error. *)
Theorem C9_transcribe_result url env st :
  result_of (azure_transcribe_from_url url env st) =
  match http_content env url with
  | Raise e => Raise e
  | Ret wav =>
      match recognition env wav with
      | Raise e => Raise e
      | Ret r =>
          match reason r with
          | RecognizedSpeech => Ret (text r)
          | _ => Ret []
          end
      end
  end.
Proof.
  rewrite azure_transcribe_from_url_run.
  destruct (http_content env url) as [wav|e]; [|reflexivity].
  destruct (recognition env wav) as [r|e]; [|reflexivity].
  destruct r as [[] txt]; reflexivity.
Qed.

(** ** C10 *)

(** C10, at a request for which every collaborator works: the call-start
    endpoint's instructions end with the [Say] "I didn't receive a
    recording. Goodbye." right after its only [<Record>], but the turn
    endpoint never comes to its "Thank you for calling. Goodbye.":
    [azure_tts_to_mp3] raises on its first SDK call, the handler ends with
    that exception and the platform gets a 500 without instructions. *)
Theorem C10_turn_endpoint_raises_before_its_goodbye :
  (exists pre attrs,
     result_of (twilio_voice env_ok st0)
     = Ret (pre ++ [RecordVerb attrs; Say (lit "I didn't receive a recording. Goodbye.")])
     /\ Forall (fun x => is_record x = false) pre)
  /\ result_of (process_recording url0 sid0 caller0 callee0 env_ok st0)
     = Raise (PyErr "ValueError" "default speaker needs to be explicitly activated")
  /\ serve_process_recording form0 env_ok st0
     = ({| status_code := 500; body := None |},
        state_of (process_recording url0 sid0 caller0 callee0 env_ok st0),
        log_of (process_recording url0 sid0 caller0 callee0 env_ok st0))
  /\ Forall returned
       (removelast (log_of (process_recording url0 sid0 caller0 callee0 env_ok st0))).
Proof.
  split.
  - exists [Say (lit "Hello. You're connected to the legal information assistant. Please ask your question after the beep. Then pause.")].
    eexists. split; [reflexivity|].
    apply List.Forall_cons; [reflexivity|apply List.Forall_nil].
  - split; [vm_compute; reflexivity|]. split; [vm_compute; reflexivity|].
    vm_compute. all_log.
Qed.

(** * Further properties of the helpers *)

(** ** [str.strip] *)

Lemma lstrip_split (s : pystr) :
  exists ws, s = ws ++ lstrip s /\ forallb py_isspace ws = true.
Proof.
  induction s as [|c s (ws & Hs & Hws)]; simpl.
  - exists []. split; reflexivity.
  - destruct (py_isspace c) eqn:E.
    + exists (c :: ws). simpl. rewrite E, Hws. split; [congruence|reflexivity].
    + exists []. split; reflexivity.
Qed.

Lemma lstrip_fixed (c : N) (r : pystr) :
  py_isspace c = false -> lstrip (c :: r) = c :: r.
Proof. intros H. simpl. rewrite H. reflexivity. Qed.

Lemma forallb_rev (p : N -> bool) (l : list N) :
  forallb p (rev l) = forallb p l.
Proof.
  apply eq_true_iff_eq. rewrite !forallb_forall.
  split; intros H x Hx; apply H; [rewrite <- in_rev|rewrite <- in_rev in Hx]; exact Hx.
Qed.

(** [strip] removes a run of whitespace at each end and nothing else. *)
Lemma strip_split (s : pystr) :
  exists ws1 ws2,
    s = ws1 ++ strip s ++ ws2 /\
    forallb py_isspace ws1 = true /\ forallb py_isspace ws2 = true.
Proof.
  destruct (lstrip_split s) as (ws1 & Hs & H1).
  destruct (lstrip_split (rev (lstrip s))) as (ws & Hr & Hws).
  exists ws1, (rev ws). split; [|split; [exact H1|rewrite forallb_rev; exact Hws]].
  unfold strip, rstrip. rewrite <- rev_app_distr, <- Hr, rev_involutive. exact Hs.
Qed.

Lemma strip_no_leading (s : pystr) (c : N) (r : pystr) :
  strip s = c :: r -> py_isspace c = false.
Proof.
  intros H.
  destruct (lstrip_split (rev (lstrip s))) as (ws & Hr & _).
  apply (f_equal (@rev N)) in Hr. rewrite rev_involutive, rev_app_distr in Hr.
  fold (rstrip (lstrip s)) in Hr. fold (strip s) in Hr. rewrite H in Hr.
  destruct (lstrip_head s) as [E|(c' & r' & E & Hc)].
  - rewrite E in Hr. discriminate Hr.
  - rewrite E in Hr. simpl in Hr. injection Hr as -> _. exact Hc.
Qed.

Lemma strip_no_trailing (s : pystr) (r : pystr) (c : N) :
  strip s = r ++ [c] -> py_isspace c = false.
Proof.
  unfold strip, rstrip. intros H.
  apply (f_equal (@rev N)) in H. rewrite rev_involutive, rev_app_distr in H.
  simpl in H.
  destruct (lstrip_head (rev (lstrip s))) as [E|(c' & r' & E & Hc)].
  - rewrite E in H. discriminate H.
  - rewrite E in H. injection H as -> _. exact Hc.
Qed.

(** ** [lawyer_bot_answer] *)

(** X1: an answer returned by [lawyer_bot_answer] is the model's content
    with a run of whitespace cut off each end and nothing else changed: it
    neither starts nor ends with whitespace.  The call is logged once and
    the state is untouched. *)
Theorem lawyer_bot_answer_is_trimmed_content question env st a st' l :
  lawyer_bot_answer question env st = (Ret a, st', l) ->
  exists content ws1 ws2,
    llm_content env question = Ret content /\
    content = ws1 ++ a ++ ws2 /\
    forallb py_isspace ws1 = true /\ forallb py_isspace ws2 = true /\
    (forall c r, a = c :: r -> py_isspace c = false) /\
    (forall r c, a = r ++ [c] -> py_isspace c = false) /\
    st' = st /\ l = [(chain_invoke question, None)].
Proof.
  unfold lawyer_bot_answer, bind, external, ret.
  destruct (llm_content env question) as [content|e]; [|discriminate].
  intros H. injection H as <- <- <-.
  destruct (strip_split content) as (ws1 & ws2 & Hc & H1 & H2).
  exists content, ws1, ws2. split; [reflexivity|]. split; [exact Hc|].
  split; [exact H1|]. split; [exact H2|].
  split; [intros c r; apply strip_no_leading|].
  split; [intros r c; apply strip_no_trailing|]. split; reflexivity.
Qed.

Lemma lawyer_bot_answer_is_trimmed_content_witness :
  exists content ws1 ws2,
    llm_content env_ok (lit "What is estafa?") = Ret content /\
    content
    = ws1 ++ lit "Estafa is a form of fraud. Please consult a licensed attorney." ++ ws2 /\
    forallb py_isspace ws1 = true /\ forallb py_isspace ws2 = true /\
    (forall c r,
       lit "Estafa is a form of fraud. Please consult a licensed attorney." = c :: r ->
       py_isspace c = false) /\
    (forall r c,
       lit "Estafa is a form of fraud. Please consult a licensed attorney." = r ++ [c] ->
       py_isspace c = false) /\
    st0 = st0 /\
    [(chain_invoke (lit "What is estafa?"), @None exn)]
    = [(chain_invoke (lit "What is estafa?"), None)].
Proof.
  apply (lawyer_bot_answer_is_trimmed_content (lit "What is estafa?") env_ok st0).
  vm_compute. reflexivity.
Defined.

(** ** [azure_transcribe_from_url] *)

(** X2: when [azure_transcribe_from_url] returns, its temporary file is
    gone and every other file under [/tmp] is as before; one uuid was
    drawn, Firestore and the bucket are untouched, and exactly two calls
    were made: the download and the recognition of the temporary file. *)
Theorem azure_transcribe_from_url_cleans_up url env st t :
  let run := azure_transcribe_from_url url env st in
  result_of run = Ret t ->
  tmp_files (state_of run) !! tmp_wav env st = None /\
  (forall p, p <> tmp_wav env st ->
     tmp_files (state_of run) !! p = tmp_files st !! p) /\
  uuids_drawn (state_of run) = S (uuids_drawn st) /\
  db (state_of run) = db st /\
  bucket (state_of run) = bucket st /\
  log_of run
  = [(requests_get url, None); (recognize_once (tmp_wav env st), None)].
Proof.
  intros run; subst run. rewrite azure_transcribe_from_url_run.
  destruct (http_content env url) as [wav|e]; [|discriminate].
  destruct (recognition env wav) as [r|e]; [|discriminate].
  intros _. unfold state_of, log_of. cbn [fst snd tmp_files uuids_drawn db bucket].
  split; [apply lookup_delete_eq|].
  split; [|repeat split].
  intros p Hp. rewrite lookup_delete_ne by congruence.
  apply lookup_insert_ne. congruence.
Qed.

Lemma azure_transcribe_from_url_cleans_up_witness :
  let run := azure_transcribe_from_url url0 env_ok st0 in
  tmp_files (state_of run) !! tmp_wav env_ok st0 = None /\
  (forall p, p <> tmp_wav env_ok st0 ->
     tmp_files (state_of run) !! p = tmp_files st0 !! p) /\
  uuids_drawn (state_of run) = S (uuids_drawn st0) /\
  db (state_of run) = db st0 /\
  bucket (state_of run) = bucket st0 /\
  log_of run
  = [(requests_get url0, None); (recognize_once (tmp_wav env_ok st0), None)].
Proof.
  apply (azure_transcribe_from_url_cleans_up url0 env_ok st0 (lit "What is estafa?")).
  vm_compute. reflexivity.
Defined.

(** X3: when [azure_transcribe_from_url] raises, either the download
    raised and the state is exactly what it was, or the recogniser raised
    and the temporary file is left behind holding the downloaded audio:
    [os.remove] is only reached after the recogniser returned. *)
Theorem azure_transcribe_from_url_failure_state url env st e :
  let run := azure_transcribe_from_url url env st in
  result_of run = Raise e ->
  (http_content env url = Raise e /\
   state_of run = st /\
   log_of run = [(requests_get url, Some e)])
  \/ (exists wav,
        http_content env url = Ret wav /\
        recognition env wav = Raise e /\
        tmp_files (state_of run) !! tmp_wav env st = Some wav /\
        uuids_drawn (state_of run) = S (uuids_drawn st) /\
        log_of run
        = [(requests_get url, None); (recognize_once (tmp_wav env st), Some e)]).
Proof.
  intros run; subst run. rewrite azure_transcribe_from_url_run.
  destruct (http_content env url) as [wav|e1] eqn:Eh.
  - destruct (recognition env wav) as [r|e2] eqn:Er; [discriminate|].
    intros H. injection H as ->. right. exists wav.
    unfold state_of, log_of. cbn [fst snd tmp_files uuids_drawn].
    split; [reflexivity|]. split; [exact Er|].
    split; [apply lookup_insert_eq|]. split; reflexivity.
  - intros H. injection H as ->. left. repeat split.
Qed.

Lemma azure_transcribe_from_url_failure_state_witness :
  let run := azure_transcribe_from_url url0 env_recognizer_raises st0 in
  (http_content env_recognizer_raises url0 = Raise sdk_error /\
   state_of run = st0 /\
   log_of run = [(requests_get url0, Some sdk_error)])
  \/ (exists wav,
        http_content env_recognizer_raises url0 = Ret wav /\
        recognition env_recognizer_raises wav = Raise sdk_error /\
        tmp_files (state_of run) !! tmp_wav env_recognizer_raises st0 = Some wav /\
        uuids_drawn (state_of run) = S (uuids_drawn st0) /\
        log_of run
        = [(requests_get url0, None);
           (recognize_once (tmp_wav env_recognizer_raises st0), Some sdk_error)]).
Proof.
  apply (azure_transcribe_from_url_failure_state url0 env_recognizer_raises st0 sdk_error).
  vm_compute. reflexivity.
Defined.


(** * Further properties of [azure_tts_to_mp3] and [process_recording] *)

(** X13: [azure_tts_to_mp3] raises on every text, in every world: its first
    SDK call, [AudioOutputConfig(use_default_speaker=False, filename=None)],
    is refused with a [ValueError].  The synthesiser is never called and
    the state is unchanged. *)
Theorem azure_tts_to_mp3_always_raises text env st :
  azure_tts_to_mp3 text env st
  = (Raise (PyErr "ValueError" "default speaker needs to be explicitly activated"),
     st,
     [(tts_request text,
       Some (PyErr "ValueError" "default speaker needs to be explicitly activated"))]).
Proof. reflexivity. Qed.

(** X5: when the transcript is not blank, the language model is asked
    once, with the transcript as recognised (not stripped); what is
    synthesised and what the turn document records as answer is the
    model's content, stripped; the document records the transcript as
    recognised.  What [azure_tts_to_mp3] is called on is the model's
    content, stripped. *)
Theorem nonblank_transcript_is_answered_by_the_model url sid from to env st t :
  result_of (azure_transcribe_from_url (url ++ lit ".wav") env st) = Ret t ->
  forallb py_isspace t = false ->
  let run := process_recording url sid from to env st in
  (exists o, (chain_invoke t, o) ∈ log_of run) /\
  (forall q o, (chain_invoke q, o) ∈ log_of run -> q = t) /\
  (forall txt o, (speak_text txt, o) ∈ log_of run ->
     exists content, llm_content env t = Ret content /\ txt = strip content) /\
  (forall c i d o, (document_set c i d, o) ∈ log_of run ->
     d !! "question_transcript" = Some (PyStr t) /\
     exists content, llm_content env t = Ret content /\
                     d !! "answer_text" = Some (PyStr (strip content))) /\
  (forall txt o, (tts_request txt, o) ∈ log_of run ->
     exists content, llm_content env t = Ret content /\ txt = strip content).
Proof.
  rewrite azure_transcribe_from_url_run. intros H Hsp run; subst run.
  assert (Hne : strip t <> []).
  { intros Hs. apply strip_nil_iff in Hs. congruence. }
  clear Hsp. revert H.
  run_process_recording; intros H; try discriminate H.
  all: injection H as <-; try contradiction.
  all: split; [eexists; in_log|].
  all: split; [intros q o Hin; log_inv Hin; reflexivity|].
  all: split; [intros txt o Hin; log_inv Hin|].
  all: split; [intros c i d o Hin; log_inv Hin|].
  all: intros txt o Hin; log_inv Hin; eexists; (split; [eassumption|reflexivity]).
Qed.

Lemma nonblank_transcript_is_answered_by_the_model_witness :
  let run := process_recording url0 sid0 caller0 callee0 env_ok st0 in
  let t := lit "What is estafa?" in
  (exists o, (chain_invoke t, o) ∈ log_of run) /\
  (forall q o, (chain_invoke q, o) ∈ log_of run -> q = t) /\
  (forall txt o, (speak_text txt, o) ∈ log_of run ->
     exists content, llm_content env_ok t = Ret content /\ txt = strip content) /\
  (forall c i d o, (document_set c i d, o) ∈ log_of run ->
     d !! "question_transcript" = Some (PyStr t) /\
     exists content, llm_content env_ok t = Ret content /\
                     d !! "answer_text" = Some (PyStr (strip content))) /\
  (forall txt o, (tts_request txt, o) ∈ log_of run ->
     exists content, llm_content env_ok t = Ret content /\ txt = strip content).
Proof.
  apply (nonblank_transcript_is_answered_by_the_model
           url0 sid0 caller0 callee0 env_ok st0 (lit "What is estafa?")).
  - vm_compute. reflexivity.
  - vm_compute. reflexivity.
Defined.

(** X6: a model answer that is empty or all whitespace is not replaced by
    an apology: the answer text becomes the empty string, and
    [azure_tts_to_mp3] is called on the empty string and on nothing
    else. *)
Theorem blank_model_content_is_synthesised_as_empty_text
    url sid from to env st t content :
  result_of (azure_transcribe_from_url (url ++ lit ".wav") env st) = Ret t ->
  forallb py_isspace t = false ->
  llm_content env t = Ret content ->
  forallb py_isspace content = true ->
  let run := process_recording url sid from to env st in
  (exists o, (tts_request [], o) ∈ log_of run) /\
  (forall txt o, (tts_request txt, o) ∈ log_of run -> txt = []).
Proof.
  rewrite azure_transcribe_from_url_run. intros H Hsp Hllm Hc run; subst run.
  assert (Hne : strip t <> []).
  { intros Hs. apply strip_nil_iff in Hs. congruence. }
  apply strip_nil_iff in Hc. clear Hsp. revert H Hllm.
  run_process_recording; intros H Hllm; try discriminate H.
  all: injection H as <-; try contradiction.
  all: try congruence.
  all: match goal with
       | E : llm_content _ _ = Ret ?a |- _ =>
           tryif constr_eq a content then fail
           else (rewrite Hllm in E; injection E as <-)
       end.
  all: rewrite ?Hc.
  all: split; [eexists; in_log|].
  all: intros txt o Hin; log_inv Hin; reflexivity.
Qed.

Lemma blank_model_content_witness :
  let run := process_recording url0 sid0 caller0 callee0 env_llm_blank st0 in
  (exists o, (tts_request [], o) ∈ log_of run) /\
  (forall txt o, (tts_request txt, o) ∈ log_of run -> txt = []).
Proof.
  apply (blank_model_content_is_synthesised_as_empty_text
           url0 sid0 caller0 callee0 env_llm_blank st0
           (lit "What is estafa?") (lit "  ")).
  - vm_compute. reflexivity.
  - vm_compute. reflexivity.
  - vm_compute. reflexivity.
  - vm_compute. reflexivity.
Defined.

(** X7: every run starts by downloading [RecordingUrl + ".wav"]; the calls
    it makes follow the fixed order download, recognition, language model,
    synthesis, Firestore write, upload, [make_public], each stage at most
    once (nothing is retried); and only the last call of a run can have
    raised (nothing is called after a failure). *)
Theorem process_recording_call_discipline url sid from to env st :
  let log := log_of (process_recording url sid from to env st) in
  (exists o rest, log = (requests_get (url ++ lit ".wav"), o) :: rest) /\
  StronglySorted lt (List.map (fun ev : event => call_stage ev.1) log) /\
  Forall returned (removelast log).
Proof.
  intros log; subst log. run_process_recording.
  all: split; [do 2 eexists; reflexivity|].
  all: cbn [List.map call_stage fst removelast].
  all: split; [|all_log].
  all: repeat (apply SSorted_cons;
               [|repeat (apply List.Forall_cons; [lia|]); apply List.Forall_nil]).
  all: apply SSorted_nil.
Qed.

(** X14: [process_recording] never returns.  Every run ends with an
    exception, so the reply is a 500 without instructions; a request is
    never answered 200.  No run comes to the synthesiser, to Firestore or
    to the bucket: none of them is called, and what Firestore and the
    bucket hold is unchanged. *)
Theorem process_recording_never_returns url sid from to env st :
  let run := process_recording url sid from to env st in
  (exists e, result_of run = Raise e) /\
  post_process_recording url sid from to env st
  = {| status_code := 500; body := None |} /\
  (forall f, status_code (serve_process_recording f env st).1.1 <> 200) /\
  Forall (fun ev => comes_after_tts_setup ev.1 = false) (log_of run) /\
  db (state_of run) = db st /\
  bucket (state_of run) = bucket st.
Proof.
  intros run; subst run.
  assert (Hr : forall u s a b,
             exists e, result_of (process_recording u s a b env st) = Raise e).
  { intros u s a b.
    destruct (process_recording_raises u s a b env st) as (c & e & _ & He).
    exists e. exact He. }
  split; [apply Hr|].
  split; [unfold post_process_recording;
          destruct (Hr url sid from to) as [e ->]; reflexivity|].
  split.
  { intros f. unfold serve_process_recording, post_process_recording.
    destruct (form_value (RecordingUrl_field f)) as [u|];
      [destruct (form_value (CallSid_field f)) as [s|]|]; cbn [fst snd].
    - destruct (Hr u s (form_value (From_field f)) (form_value (To_field f)))
        as [e ->].
      discriminate.
    - discriminate.
    - discriminate. }
  run_process_recording.
  all: split; [|split; reflexivity].
  all: all_log.
Qed.
